(** * Room-scoped event routing of the AMEP backend (backend/app.py)

    The WebSocket handlers registered by [register_socketio_events] keep no
    state of their own: room membership lives in the Flask-SocketIO server
    they call ([join_room], [leave_room], [emit]).  The development has two
    layers:

    - [SocketIO]: the state of the host library and the three calls the
      handlers make, following the library's documented behaviour;
    - [App]: the handlers of backend/app.py, statement by statement, in a
      small state-and-exception monad over that state. *)

From stdpp Require Import gmap strings list fin_maps pretty.

Local Open Scope string_scope.
Local Open Scope Z_scope.

(** ** Python values *)

(** Scalars that occur in the JSON payloads of the events: [None]
    (JSON null, and what [dict.get] returns for a missing key), [str] and
    [int]. *)
Inductive value : Type :=
  | VNone
  | VStr (s : string)
  | VInt (z : Z).

#[global] Instance value_eq_dec : EqDecision value.
Proof. solve_decision. Defined.

Definition value_to_sum (v : value) : unit + (string + Z) :=
  match v with
  | VNone => inl tt
  | VStr s => inr (inl s)
  | VInt z => inr (inr z)
  end.

Definition value_of_sum (x : unit + (string + Z)) : value :=
  match x with
  | inl _ => VNone
  | inr (inl s) => VStr s
  | inr (inr z) => VInt z
  end.

#[global] Instance value_countable : Countable value.
Proof.
  refine (inj_countable' value_to_sum value_of_sum _).
  by intros [].
Defined.

(** [str(v)], as used by f-strings. *)
Definition py_str (v : value) : string :=
  match v with
  | VNone => "None"
  | VStr s => s
  | VInt z => pretty z
  end.

(** [bool(v)]: [None], the empty string and 0 are falsy. *)
Definition truthy (v : value) : bool :=
  match v with
  | VNone => false
  | VStr "" => false
  | VStr _ => true
  | VInt 0 => false
  | VInt _ => true
  end.

(** The argument a handler receives: a dict of scalars, or anything else
    a client may emit in its place (a bare scalar). *)
Inductive pyobj : Type :=
  | Dict (d : gmap string value)
  | Atom (v : value).

(** Session identifiers are strings generated by the server. *)
Abbreviation sid := string (only parsing).

(** ** The host library *)

Module SocketIO.

(** What [emit] hands to the transport: the event name, the payload, the
    room it was addressed to and the connections that room resolved to
    when [emit] was called. *)
Record delivery : Type := Delivery {
  d_event : string;
  d_payload : gmap string value;
  d_to : value;
  d_recipients : gset string
}.

(** Server state.  [conns] are the open transport sessions.  [rooms]
    maps a room name to its participants; the room named [None] is the
    library's room of all clients, and being in it is what the library
    takes for being connected; every client also sits in a room named by
    its own sid.  [outbox] and [stdout] record what was emitted and
    printed, oldest first. *)
Record world : Type := World {
  conns : gset string;
  rooms : gmap value (gset string);
  outbox : list delivery;
  stdout : list string
}.

Definition init : world := World ∅ ∅ [] [].

Definition set_rooms (f : gmap value (gset string) → gmap value (gset string))
    (w : world) : world :=
  World (conns w) (f (rooms w)) (outbox w) (stdout w).

Definition set_conns (f : gset string → gset string) (w : world) : world :=
  World (f (conns w)) (rooms w) (outbox w) (stdout w).

(** Participants of a room; a room that does not exist is empty. *)
Definition participants (rs : gmap value (gset string)) (r : value) : gset string :=
  default ∅ (rs !! r).

Definition members (w : world) (r : value) : gset string :=
  participants (rooms w) r.

(** The rooms a connection is in. *)
Definition joined_rooms (w : world) (c : sid) : gset value :=
  dom (filter (λ kv, c ∈ kv.2) (rooms w)).

(** Exceptions a handler can raise. *)
Inductive exn : Type :=
  | AttributeError.

(** Outcome of running a handler: it returns, or it raises; either way
    the effects performed so far stay in the state. *)
Inductive result (A : Type) : Type :=
  | Ok (a : A) (w : world)
  | Raise (e : exn) (w : world).
Arguments Ok {A} a w.
Arguments Raise {A} e w.

Definition M (A : Type) : Type := world → result A.

Definition ret {A} (a : A) : M A := λ w, Ok a w.

Definition bind {A B} (m : M A) (k : A → M B) : M B :=
  λ w, match m w with
       | Ok a w' => k a w'
       | Raise e w' => Raise e w'
       end.

Definition raise {A} (e : exn) : M A := λ w, Raise e w.

Definition final {A} (r : result A) : world :=
  match r with
  | Ok _ w => w
  | Raise _ w => w
  end.

Definition run {A} (m : M A) (w : world) : world := final (m w).

(** Membership primitives of the room table. *)
Definition enter_room (c : sid) (r : value)
    (rs : gmap value (gset string)) : gmap value (gset string) :=
  <[r := {[c]} ∪ default ∅ (rs !! r)]> rs.

(** Removing a client that is not in the room, or from a room that does
    not exist, changes nothing; a room left empty is deleted. *)
Definition exit_room (c : sid) (r : value)
    (rs : gmap value (gset string)) : gmap value (gset string) :=
  match rs !! r with
  | Some m =>
      if decide (c ∈ m) then
        if decide (m ∖ {[c]} = ∅) then delete r rs
        else <[r := m ∖ {[c]}]> rs
      else rs
  | None => rs
  end.

(** [join_room(room)] called in the handler of connection [c]. *)
Definition join_room (c : sid) (room : value) : M unit :=
  λ w, Ok tt (set_rooms (enter_room c room) w).

(** [leave_room(room)] called in the handler of connection [c]. *)
Definition leave_room (c : sid) (room : value) : M unit :=
  λ w, Ok tt (set_rooms (exit_room c room) w).

(** The [skip_sid] keyword of [emit]: a session id to leave out.  The
    library compares it with the session ids of the participants, so a
    value that is no session id ([None], [True]) leaves nobody out. *)
Inductive skip_arg : Type :=
  | SkipNone
  | SkipBool (b : bool)
  | SkipSid (s : sid).

Definition skipped (skip : skip_arg) (c : sid) : bool :=
  match skip with
  | SkipSid s => bool_decide (c = s)
  | _ => false
  end.

(** Where [emit] sends.  Without a room ([None]) it is every client when
    [broadcast] is set and otherwise the calling client, through the room
    named by its sid (a session id is a non-empty string).  A room that
    is given is passed down as [to or room], so a falsy name (the empty
    string, 0) ends up as [None], the room of all clients. *)
Definition target (c : sid) (room : value) (broadcast : bool) : value :=
  match room with
  | VNone => if broadcast then VNone else VStr c
  | _ => if truthy room then room else VNone
  end.

(** [emit(event, payload, room=room, broadcast=broadcast,
    skip_sid=skip)] called in the handler of connection [c].  The
    audience is read from the room table at the call. *)
Definition emit (c : sid) (event : string) (payload : gmap string value)
    (room : value) (broadcast : bool) (skip : skip_arg) : M unit :=
  λ w,
    let to := target c room broadcast in
    let audience := filter (λ x, skipped skip x = false) (members w to) in
    Ok tt (World (conns w) (rooms w)
             (outbox w ++ [Delivery event payload to audience])
             (stdout w)).

(** [print(line)]. *)
Definition print (line : string) : M unit :=
  λ w, Ok tt (World (conns w) (rooms w) (outbox w) (stdout w ++ [line])).

(** A new client: the library registers it and puts it in the room of
    all clients and in its own room before the connect handler runs. *)
Definition register (c : sid) (w : world) : world :=
  set_conns (λ cs, {[c]} ∪ cs)
    (set_rooms (λ rs, enter_room c (VStr c) (enter_room c VNone rs)) w).

(** A client that goes away: after the disconnect handler has run the
    library takes it out of every room it is in. *)
Definition leave_all (c : sid)
    (rs : gmap value (gset string)) : gmap value (gset string) :=
  omap (λ m, if decide (c ∈ m) then
               if decide (m ∖ {[c]} = ∅) then None else Some (m ∖ {[c]})
             else Some m) rs.

Definition unregister (c : sid) (w : world) : world :=
  set_conns (λ cs, cs ∖ {[c]}) (set_rooms (leave_all c) w).

End SocketIO.

(** ** The handlers of backend/app.py *)

Module App.
Import SocketIO.

Notation "'let!' x ':=' m 'in' k" := (bind m (λ x, k))
  (at level 10, x name, m at level 100, k at level 200, only parsing).
Notation "'do!' m 'in' k" := (bind m (λ _, k))
  (at level 10, m at level 100, k at level 200, only parsing).

(** [data.get(key)] and [data.get(key, dflt)]: an object that is no
    dict has no [get]. *)
Definition get_default (data : pyobj) (key : string) (dflt : value) : M value :=
  match data with
  | Dict d => ret (default dflt (d !! key))
  | Atom _ => raise AttributeError
  end.

Definition get (data : pyobj) (key : string) : M value :=
  get_default data key VNone.

(** Every handler runs for one connection [c] (the library's
    [request.sid]) and reads the clock once, [now] being
    [datetime.now().isoformat()]. *)

Definition handle_connect (now : string) (c : sid) : M unit :=
  do! print "✓ Client connected" in
  emit c "connected"
    {[ "message" := VStr "Connected to AMEP server";
       "timestamp" := VStr now ]}
    VNone false SkipNone.

Definition handle_disconnect (c : sid) : M unit :=
  print "✗ Client disconnected".

Definition handle_join_class (now : string) (c : sid) (data : pyobj) : M unit :=
  let! class_id := get data "class_id" in
  let! user_id := get data "user_id" in
  let! user_role := get_default data "role" (VStr "student") in
  do! join_room c class_id in
  do! print ("✓ User " +:+ py_str user_id +:+ " (" +:+ py_str user_role
           +:+ ") joined class: " +:+ py_str class_id) in
  emit c "user_joined"
    {[ "user_id" := user_id;
       "role" := user_role;
       "timestamp" := VStr now ]}
    class_id false (SkipBool true).

Definition handle_leave_class (c : sid) (data : pyobj) : M unit :=
  let! class_id := get data "class_id" in
  let! user_id := get data "user_id" in
  do! leave_room c class_id in
  print ("✗ User " +:+ py_str user_id +:+ " left class: " +:+ py_str class_id).

Definition handle_poll_response (now : string) (c : sid) (data : pyobj) : M unit :=
  let! poll_id := get data "poll_id" in
  let! class_id := get data "class_id" in
  let! total_responses := get_default data "total_responses" (VInt 0) in
  do! emit c "poll_updated"
    {[ "poll_id" := poll_id;
       "total_responses" := total_responses;
       "timestamp" := VStr now ]}
    class_id true SkipNone in
  print ("✓ Poll " +:+ py_str poll_id +:+ " updated").

Definition handle_engagement_alert (now : string) (c : sid) (data : pyobj) : M unit :=
  let! class_id := get data "class_id" in
  let! student_id := get data "student_id" in
  let! alert_type := get data "alert_type" in
  let! severity := get data "severity" in
  let! message := get data "message" in
  do! emit c "engagement_alert_received"
    {[ "student_id" := student_id;
       "alert_type" := alert_type;
       "severity" := severity;
       "message" := message;
       "timestamp" := VStr now ]}
    (VStr ("teachers_" +:+ py_str class_id)) false SkipNone in
  print ("⚠️  Engagement alert for student " +:+ py_str student_id).

(** The table built by the [@socketio.on(...)] decorators for the events
    that carry a payload; an event with no handler is ignored. *)
Definition on (tag : string) (now : string) (c : sid) (data : pyobj) : M unit :=
  if decide (tag = "join_class") then handle_join_class now c data
  else if decide (tag = "leave_class") then handle_leave_class c data
  else if decide (tag = "poll_response_submitted") then handle_poll_response now c data
  else if decide (tag = "engagement_alert") then handle_engagement_alert now c data
  else ret tt.

(** What a handler works with when a field is absent: the second
    argument of the [get] that reads it, [None] where there is none. *)
Definition field_default (key : string) : value :=
  if decide (key = "role") then VStr "student"
  else if decide (key = "total_responses") then VInt 0
  else VNone.

(** What reaches the server. *)
Inductive input : Type :=
  | Connect (c : sid)
  | Disconnect (c : sid)
  | Message (c : sid) (tag : string) (data : pyobj).

(** One transition of the server.  The library hands out session ids
    that are not in use, and only an open session sends events or
    closes.  The library serves a session only while it is in the room of
    all clients: otherwise its events are dropped before any handler
    runs, and when it closes neither the disconnect handler nor the
    cleanup of its rooms takes place. *)
Inductive step (w : world) : input → world → Prop :=
  | step_connect now c :
      c ∉ conns w →
      step w (Connect c) (run (handle_connect now c) (register c w))
  | step_disconnect c :
      c ∈ conns w →
      c ∈ members w VNone →
      step w (Disconnect c) (unregister c (run (handle_disconnect c) w))
  | step_disconnect_unnoticed c :
      c ∈ conns w →
      c ∉ members w VNone →
      step w (Disconnect c) (set_conns (λ cs, cs ∖ {[c]}) w)
  | step_message now c tag data :
      c ∈ conns w →
      c ∈ members w VNone →
      step w (Message c tag data) (run (on tag now c data) w)
  | step_message_dropped c tag data :
      c ∈ conns w →
      c ∉ members w VNone →
      step w (Message c tag data) w.

Inductive reachable : world → Prop :=
  | reachable_init : reachable init
  | reachable_step w i w' : reachable w → step w i w' → reachable w'.

(** An event that takes its sender out of the room of all clients: a
    [leave_class] whose [class_id] is missing or [None]. *)
Definition leaves_room_of_all (i : input) : Prop :=
  match i with
  | Message _ tag (Dict d) =>
      tag = "leave_class" ∧ default VNone (d !! "class_id") = VNone
  | _ => False
  end.

(** The states reached without any such event. *)
Inductive reachable_tidy : world → Prop :=
  | reachable_tidy_init : reachable_tidy init
  | reachable_tidy_step w i w' :
      reachable_tidy w → ¬ leaves_room_of_all i → step w i w' →
      reachable_tidy w'.

End App.

(** ** Shape of the room table *)

(** No room of the table is empty. *)
Definition no_empty_room (rs : gmap value (gset string)) : Prop :=
  ∀ r m, rs !! r = Some m → m ≠ ∅.

(** ** The HTTP error handlers of backend/app.py *)

Module Http.

(** The error an error handler receives: [str(error)] and its
    [description] attribute, when it has one. *)
Record error : Type := Error {
  err_str : string;
  err_description : option value
}.

(** What a view returns: the dict given to [jsonify] and the status. *)
Definition response : Type := gmap string value * Z.

Definition not_found (e : error) : response :=
  ({[ "error" := VStr "Endpoint not found";
      "status" := VInt 404;
      "path" := default VNone (err_description e) ]}, 404).

(** [debug] is [app.config['DEBUG']]. *)
Definition internal_error (debug : bool) (e : error) : response :=
  ({[ "error" := VStr "Internal server error";
      "status" := VInt 500;
      "message" := VStr (if debug then err_str e else "An error occurred") ]},
   500).

Definition bad_request (e : error) : response :=
  ({[ "error" := VStr "Bad request";
      "status" := VInt 400;
      "message" := VStr (err_str e) ]}, 400).

Definition unauthorized (e : error) : response :=
  ({[ "error" := VStr "Unauthorized";
      "status" := VInt 401;
      "message" := VStr "Authentication required" ]}, 401).

Definition forbidden (e : error) : response :=
  ({[ "error" := VStr "Forbidden";
      "status" := VInt 403;
      "message" := VStr "Insufficient permissions" ]}, 403).

(** The table built by the [@app.errorhandler(code)] decorators. *)
Definition errorhandler (code : Z) : option (bool → error → response) :=
  if decide (code = 404) then Some (λ _, not_found)
  else if decide (code = 500) then Some internal_error
  else if decide (code = 400) then Some (λ _, bad_request)
  else if decide (code = 401) then Some (λ _, unauthorized)
  else if decide (code = 403) then Some (λ _, forbidden)
  else None.

End Http.

(** ** Scenarios

    Two clients, A (a student) and B (a teacher), and the events of the
    classroom "class1" they exchange. *)

Module Scenario.
Import SocketIO App.

Definition join_A : gmap string value :=
  {[ "class_id" := VStr "class1"; "user_id" := VStr "u1";
     "role" := VStr "student" ]}.

Definition join_A_without_role : gmap string value :=
  {[ "class_id" := VStr "class1"; "user_id" := VStr "u1" ]}.

Definition join_B : gmap string value :=
  {[ "class_id" := VStr "class1"; "user_id" := VStr "t1";
     "role" := VStr "teacher" ]}.

Definition leave_A : gmap string value :=
  {[ "class_id" := VStr "class1"; "user_id" := VStr "u1" ]}.

Definition poll : gmap string value :=
  {[ "poll_id" := VStr "p1"; "class_id" := VStr "class1";
     "total_responses" := VInt 7 ]}.

Definition poll_without_total : gmap string value :=
  {[ "poll_id" := VStr "p1"; "class_id" := VStr "class1" ]}.

Definition alert : gmap string value :=
  {[ "class_id" := VStr "class1"; "student_id" := VStr "s5";
     "alert_type" := VStr "inactivity"; "severity" := VStr "high";
     "message" := VStr "no activity for 10 minutes" ]}.

(** A asks for the room of the teachers of class1, as a student. *)
Definition join_teachers_room : gmap string value :=
  {[ "class_id" := VStr "teachers_class1"; "user_id" := VStr "u1";
     "role" := VStr "student" ]}.

(** A connected. *)
Definition only_A : world :=
  run (handle_connect "09:00:00" "A") (register "A" init).

(** A alone has joined class1. *)
Definition A_in_class : world :=
  run (on "join_class" "09:00:02" "A" (Dict join_A)) only_A.

(** A and B connected, nobody in a class yet. *)
Definition connected : world :=
  run (handle_connect "09:00:01" "B") (register "B" only_A).

(** B has joined class1 as a teacher. *)
Definition B_in_class : world :=
  run (on "join_class" "09:00:02" "B" (Dict join_B)) connected.

(** A has joined class1 as well, as a student. *)
Definition both_in_class : world :=
  run (on "join_class" "09:00:03" "A" (Dict join_A)) B_in_class.











(** The envelope that tells class1 of A's arrival. *)
Definition A_joined : delivery :=
  Delivery "user_joined"
    {[ "user_id" := VStr "u1"; "role" := VStr "student";
       "timestamp" := VStr "09:00:03" ]}
    (VStr "class1") {["A"; "B"]}.

End Scenario.

(** ** Properties *)

Import SocketIO App.

(** *** The room table *)

Section RoomTable.
Implicit Types (c : string) (r : value) (rs : gmap value (gset string)).

Lemma participants_enter_room c r rs r' :
  participants (enter_room c r rs) r' =
    if decide (r = r') then {[c]} ∪ participants rs r' else participants rs r'.
Proof.
  unfold participants, enter_room. destruct (decide (r = r')) as [Hr|Hr].
  - subst r'. by rewrite lookup_insert_eq.
  - by rewrite lookup_insert_ne.
Qed.

Lemma participants_exit_room c r rs r' :
  participants (exit_room c r rs) r' =
    if decide (r = r') then participants rs r' ∖ {[c]} else participants rs r'.
Proof.
  unfold participants, exit_room.
  destruct (rs !! r) as [m|] eqn:Hm.
  - destruct (decide (c ∈ m)) as [Hc|Hc].
    + destruct (decide (m ∖ {[c]} = ∅)) as [He|He]; destruct (decide (r = r')) as [Hr|Hr].
      * subst r'. rewrite lookup_delete_eq, Hm. simpl. by rewrite He.
      * by rewrite lookup_delete_ne.
      * subst r'. rewrite lookup_insert_eq, Hm. done.
      * by rewrite lookup_insert_ne.
    + destruct (decide (r = r')) as [Hr|Hr]; [|done]. subst r'. rewrite Hm. simpl. set_solver.
  - destruct (decide (r = r')) as [Hr|Hr]; [|done]. subst r'. rewrite Hm. simpl. set_solver.
Qed.

Lemma participants_leave_all c rs r :
  participants (leave_all c rs) r = participants rs r ∖ {[c]}.
Proof.
  unfold participants, leave_all. rewrite lookup_omap.
  destruct (rs !! r) as [m|]; simpl; [|set_solver].
  destruct (decide (c ∈ m)) as [Hc|Hc]; simpl.
  - destruct (decide (m ∖ {[c]} = ∅)) as [He|He]; simpl; [by rewrite He|done].
  - set_solver.
Qed.

(** Entering a room one is already in changes nothing. *)
Lemma enter_room_idemp c r rs :
  enter_room c r (enter_room c r rs) = enter_room c r rs.
Proof.
  unfold enter_room. rewrite lookup_insert_eq. simpl.
  rewrite insert_insert_eq. f_equal. set_solver.
Qed.

(** After leaving a room, leaving it again changes nothing. *)
Lemma exit_room_idemp c r rs :
  exit_room c r (exit_room c r rs) = exit_room c r rs.
Proof.
  unfold exit_room at 2 3.
  destruct (rs !! r) as [m|] eqn:Hm.
  - destruct (decide (c ∈ m)) as [Hc|Hc].
    + destruct (decide (m ∖ {[c]} = ∅)) as [He|He].
      * unfold exit_room. by rewrite lookup_delete_eq.
      * unfold exit_room. rewrite lookup_insert_eq.
        by rewrite decide_False by set_solver.
    + unfold exit_room. rewrite Hm. by rewrite decide_False by done.
  - unfold exit_room. by rewrite Hm.
Qed.

(** Leaving a room just entered gives every room the participants it
    had, provided the client was not in the room before. *)
Lemma exit_enter_room c r rs :
  c ∉ participants rs r →
  ∀ r', participants (exit_room c r (enter_room c r rs)) r' = participants rs r'.
Proof.
  intros Hc r'. rewrite participants_exit_room, participants_enter_room.
  destruct (decide (r = r')) as [<-|]; [set_solver|done].
Qed.
End RoomTable.

(** *** What each handler does *)

Section Handlers.
Implicit Types (c now : string) (d : gmap string value) (w : world).

(** A [skip_sid] that is no session id filters nobody out. *)
Lemma audience_no_skip (b : bool) (X : gset string) :
  filter (λ x, skipped (SkipBool b) x = false) X = X
  ∧ filter (λ x, skipped SkipNone x = false) X = X.
Proof. split; apply set_eq; intros x; rewrite elem_of_filter; naive_solver. Qed.

(** A room with a truthy name is the target, broadcast or not; with
    [broadcast=True] every other room gives the room of all clients. *)
Lemma target_truthy c (r : value) (b : bool) : truthy r = true → target c r b = r.
Proof. destruct r; simpl; try done; by intros ->. Qed.

Lemma target_broadcast c (r : value) :
  target c r true = if truthy r then r else VNone.
Proof. by destruct r. Qed.

Lemma target_falsy c (r : value) (b : bool) :
  r ≠ VNone → truthy r = false → target c r b = VNone.
Proof. destruct r; simpl; try done; by intros _ ->. Qed.

Lemma teachers_room_truthy (C : value) :
  truthy (VStr ("teachers_" +:+ py_str C)) = true.
Proof. done. Qed.

Lemma handle_not_dict now c v w :
  handle_join_class now c (Atom v) w = Raise AttributeError w
  ∧ handle_leave_class c (Atom v) w = Raise AttributeError w
  ∧ handle_poll_response now c (Atom v) w = Raise AttributeError w
  ∧ handle_engagement_alert now c (Atom v) w = Raise AttributeError w.
Proof. done. Qed.

Lemma handle_join_class_dict now c d w :
  let class_id := default VNone (d !! "class_id") in
  let user_id := default VNone (d !! "user_id") in
  let user_role := default (VStr "student") (d !! "role") in
  let rs := enter_room c class_id (rooms w) in
  handle_join_class now c (Dict d) w =
    Ok tt (World (conns w) rs
      (outbox w ++
         [Delivery "user_joined"
            {[ "user_id" := user_id; "role" := user_role;
               "timestamp" := VStr now ]}
            (target c class_id false)
            (participants rs (target c class_id false))])
      (stdout w ++
         ["✓ User " +:+ py_str user_id +:+ " (" +:+ py_str user_role
            +:+ ") joined class: " +:+ py_str class_id])).
Proof.
  intros. unfold handle_join_class, get, get_default, bind, ret,
    join_room, print, emit, set_rooms, members; simpl.
  by rewrite (proj1 (audience_no_skip true _)).
Qed.

Lemma handle_leave_class_dict c d w :
  let class_id := default VNone (d !! "class_id") in
  let user_id := default VNone (d !! "user_id") in
  handle_leave_class c (Dict d) w =
    Ok tt (World (conns w) (exit_room c class_id (rooms w)) (outbox w)
      (stdout w ++
         ["✗ User " +:+ py_str user_id +:+ " left class: "
            +:+ py_str class_id])).
Proof. done. Qed.

Lemma handle_poll_response_dict now c d w :
  let poll_id := default VNone (d !! "poll_id") in
  let class_id := default VNone (d !! "class_id") in
  let total_responses := default (VInt 0) (d !! "total_responses") in
  handle_poll_response now c (Dict d) w =
    Ok tt (World (conns w) (rooms w)
      (outbox w ++
         [Delivery "poll_updated"
            {[ "poll_id" := poll_id; "total_responses" := total_responses;
               "timestamp" := VStr now ]}
            (target c class_id true) (members w (target c class_id true))])
      (stdout w ++ ["✓ Poll " +:+ py_str poll_id +:+ " updated"])).
Proof.
  intros. unfold handle_poll_response, get, get_default, bind, ret,
    print, emit; simpl.
  by rewrite (proj2 (audience_no_skip true _)).
Qed.

Lemma handle_engagement_alert_dict now c d w :
  let class_id := default VNone (d !! "class_id") in
  let student_id := default VNone (d !! "student_id") in
  let room := VStr ("teachers_" +:+ py_str class_id) in
  handle_engagement_alert now c (Dict d) w =
    Ok tt (World (conns w) (rooms w)
      (outbox w ++
         [Delivery "engagement_alert_received"
            {[ "student_id" := student_id;
               "alert_type" := default VNone (d !! "alert_type");
               "severity" := default VNone (d !! "severity");
               "message" := default VNone (d !! "message");
               "timestamp" := VStr now ]}
            room (members w room)])
      (stdout w ++
         ["⚠️  Engagement alert for student " +:+ py_str student_id])).
Proof.
  intros. unfold handle_engagement_alert, get, get_default, bind, ret,
    print, emit; simpl.
  by rewrite (proj2 (audience_no_skip true _)).
Qed.

(** The room table after a join and after a leave. *)
Lemma rooms_join_class now c d w :
  rooms (run (handle_join_class now c (Dict d)) w) =
    enter_room c (default VNone (d !! "class_id")) (rooms w).
Proof. unfold run. by rewrite handle_join_class_dict. Qed.

Lemma rooms_leave_class c d w :
  rooms (run (handle_leave_class c (Dict d)) w) =
    exit_room c (default VNone (d !! "class_id")) (rooms w).
Proof. unfold run. by rewrite handle_leave_class_dict. Qed.

(** The forwarding handlers leave the room table alone. *)
Lemma rooms_forwarding now c (data : pyobj) w :
  rooms (run (handle_poll_response now c data) w) = rooms w
  ∧ rooms (run (handle_engagement_alert now c data) w) = rooms w.
Proof.
  unfold run. destruct data as [d|v]; [|done].
  by rewrite handle_poll_response_dict, handle_engagement_alert_dict.
Qed.

(** No handler touches the set of connections. *)
Lemma conns_handlers now c (data : pyobj) w :
  conns (run (handle_join_class now c data) w) = conns w
  ∧ conns (run (handle_leave_class c data) w) = conns w
  ∧ conns (run (handle_poll_response now c data) w) = conns w
  ∧ conns (run (handle_engagement_alert now c data) w) = conns w.
Proof.
  unfold run. destruct data as [d|v]; [|done].
  rewrite handle_join_class_dict, handle_leave_class_dict,
    handle_poll_response_dict, handle_engagement_alert_dict. done.
Qed.
End Handlers.

(** *** Forwarding handlers *)

Section Forwarding.
Implicit Types (c now : string) (d : gmap string value) (w : world).


(** C8.  [poll_response_submitted] and [engagement_alert] leave the
    connections and the room table as they were, whatever the payload,
    and the envelope they emit carries [total_responses], respectively
    [severity], exactly as read from the payload. *)
Theorem forwarding_is_read_only now c (data : pyobj) d w :
  (conns (run (handle_poll_response now c data) w) = conns w
   ∧ rooms (run (handle_poll_response now c data) w) = rooms w)
  ∧ (conns (run (handle_engagement_alert now c data) w) = conns w
     ∧ rooms (run (handle_engagement_alert now c data) w) = rooms w)
  ∧ (λ dl, d_payload dl !! "total_responses") <$>
      last (outbox (run (handle_poll_response now c (Dict d)) w))
    = Some (Some (default (VInt 0) (d !! "total_responses")))
  ∧ (λ dl, d_payload dl !! "severity") <$>
      last (outbox (run (handle_engagement_alert now c (Dict d)) w))
    = Some (Some (default VNone (d !! "severity"))).
Proof.
  unfold run. rewrite handle_poll_response_dict, handle_engagement_alert_dict.
  simpl. rewrite !last_snoc. simpl.
  split_and!; try done; by destruct data.
Qed.

(** C10.  A [poll_response_submitted] event without [total_responses]
    still yields a [poll_updated] envelope, with [total_responses] 0; it
    goes to the members of the class named by [class_id], and to the room
    of all clients when that name is falsy or missing. *)
Theorem poll_without_total_responses now c d w :
  d !! "total_responses" = None →
  ∃ w' dl,
    handle_poll_response now c (Dict d) w = Ok tt w'
    ∧ outbox w' = (outbox w ++ [dl])%list
    ∧ d_event dl = "poll_updated"
    ∧ d_payload dl !! "total_responses" = Some (VInt 0)
    ∧ d_recipients dl
      = members w (if truthy (default VNone (d !! "class_id"))
                   then default VNone (d !! "class_id") else VNone).
Proof.
  intros Ht. rewrite handle_poll_response_dict. rewrite Ht. simpl.
  rewrite target_broadcast.
  eexists _, _. split; [reflexivity|]. simpl. split; [reflexivity|]. simpl.
  repeat split; done.
Qed.
End Forwarding.

(** *** Joining *)

Section Joining.
Implicit Types (c now : string) (d : gmap string value) (w : world).

(** C9.  A [join_class] event without [role] is handled like any other:
    the sender enters the room named by [class_id] and one [user_joined]
    envelope goes out, its role being 'student'.  For a class with a
    truthy name it goes to every member of the class, the sender
    included; without a [class_id] it goes to the room named by the
    sender's sid, and for a falsy name to the room of all clients. *)
Theorem join_without_role_is_student now c d w :
  d !! "role" = None →
  ∃ w' dl,
    handle_join_class now c (Dict d) w = Ok tt w'
    ∧ members w' (default VNone (d !! "class_id"))
      = {[c]} ∪ members w (default VNone (d !! "class_id"))
    ∧ outbox w' = (outbox w ++ [dl])%list
    ∧ d_event dl = "user_joined"
    ∧ d_payload dl !! "role" = Some (VStr "student")
    ∧ d_payload dl !! "user_id" = Some (default VNone (d !! "user_id"))
    ∧ (truthy (default VNone (d !! "class_id")) = true →
       d_recipients dl = {[c]} ∪ members w (default VNone (d !! "class_id")))
    ∧ (default VNone (d !! "class_id") = VNone →
       d_recipients dl = members w (VStr c))
    ∧ (default VNone (d !! "class_id") ≠ VNone →
       truthy (default VNone (d !! "class_id")) = false →
       d_recipients dl = members w VNone).
Proof.
  intros Hr. rewrite handle_join_class_dict. rewrite Hr. simpl.
  set (C := default VNone (d !! "class_id")).
  eexists _, _. split; [reflexivity|]. unfold members. simpl.
  split.
  { rewrite participants_enter_room. by rewrite decide_True by done. }
  split; [reflexivity|]. simpl.
  split; [done|]. split; [done|]. split; [done|].
  split_and!.
  - intros HT. rewrite (target_truthy c C false HT).
    rewrite participants_enter_room. by rewrite decide_True by done.
  - intros HC. rewrite HC. simpl.
    rewrite participants_enter_room. by rewrite decide_False by done.
  - intros HC HF. rewrite (target_falsy c C false HC HF).
    rewrite participants_enter_room. by rewrite decide_False by done.
Qed.
End Joining.

(** *** Membership *)

Section Membership.
Implicit Types (c now : string) (d : gmap string value) (w : world).

Lemma elem_of_joined_rooms w c (r : value) :
  r ∈ joined_rooms w c ↔ c ∈ members w r.
Proof.
  unfold joined_rooms, members, participants.
  rewrite elem_of_dom. unfold is_Some.
  setoid_rewrite map_lookup_filter_Some. simpl. split.
  - intros (m & Hm & Hc). by rewrite Hm.
  - destruct (rooms w !! r) as [m|]; simpl; [eauto|set_solver].
Qed.

(** C7.  Handling the same [join_class] event a second time leaves the
    connections and the room table as the first left them, so the size
    of every room and the rooms of the sender stay the same, and the
    room joined counts once among the sender's rooms; a second
    [leave_class] likewise changes nothing. *)
Theorem join_leave_idempotent now now' c (data : pyobj) d w :
  let w1 := run (handle_join_class now c data) w in
  let w2 := run (handle_join_class now' c data) w1 in
  let v1 := run (handle_leave_class c data) w in
  let v2 := run (handle_leave_class c data) v1 in
  let u2 := run (handle_join_class now' c (Dict d))
              (run (handle_join_class now c (Dict d)) w) in
  (conns w2 = conns w1 ∧ rooms w2 = rooms w1)
  ∧ (∀ r, size (members w2 r) = size (members w1 r))
  ∧ joined_rooms w2 c = joined_rooms w1 c
  ∧ size (joined_rooms u2 c ∩ {[default VNone (d !! "class_id")]}) = 1%nat
  ∧ (conns v2 = conns v1 ∧ rooms v2 = rooms v1).
Proof.
  intros w1 w2 v1 v2 u2.
  assert (Hj : conns w2 = conns w1 ∧ rooms w2 = rooms w1).
  { subst w1 w2. split; [apply conns_handlers|].
    destruct data as [d0|v]; [|done].
    rewrite !rooms_join_class. apply enter_room_idemp. }
  assert (Hl : conns v2 = conns v1 ∧ rooms v2 = rooms v1).
  { subst v1 v2. split; [apply (conns_handlers now)|].
    destruct data as [d0|v]; [|done].
    rewrite !rooms_leave_class. apply exit_room_idemp. }
  destruct Hj as [Hjc Hjr]. destruct Hl as [Hlc Hlr].
  split_and!; try done.
  - intros r. unfold members. by rewrite Hjr.
  - unfold joined_rooms. by rewrite Hjr.
  - set (R := default VNone (d !! "class_id")).
    assert (HR : R ∈ joined_rooms u2 c).
    { apply elem_of_joined_rooms. subst u2. unfold members.
      rewrite !rooms_join_class, !participants_enter_room. rewrite !decide_True by done.
      set_solver. }
    replace (joined_rooms u2 c ∩ {[R]}) with ({[R]} : gset value)
      by set_solver.
    apply size_singleton.
Qed.

(** C6, amended.  When the sender is not yet a member of [R], handling
    [join_class] for [R] and then [leave_class] for [R] gives every room,
    [R] included, the members it had before the join. *)
Theorem join_then_leave_restores now c d d' w (R : value) :
  d !! "class_id" = Some R →
  d' !! "class_id" = Some R →
  c ∉ members w R →
  ∀ r, members (run (handle_leave_class c (Dict d'))
                  (run (handle_join_class now c (Dict d)) w)) r
       = members w r.
Proof.
  intros Hd Hd' Hc r. unfold members.
  rewrite rooms_leave_class, rooms_join_class, Hd, Hd'. simpl.
  by apply exit_enter_room.
Qed.
End Membership.

(** *** Connections and rooms along a run of the server *)

Section Invariant.
Implicit Types (c now : string) (w : world).

(** A handler touches the membership of its own connection only. *)
Lemma members_handlers now c (data : pyobj) w r :
  members (run (handle_join_class now c data) w) r ⊆ {[c]} ∪ members w r
  ∧ members (run (handle_leave_class c data) w) r ⊆ {[c]} ∪ members w r
  ∧ members (run (handle_poll_response now c data) w) r ⊆ {[c]} ∪ members w r
  ∧ members (run (handle_engagement_alert now c data) w) r ⊆ {[c]} ∪ members w r.
Proof.
  destruct data as [d|v].
  - unfold members.
    rewrite rooms_join_class, rooms_leave_class,
      participants_enter_room, participants_exit_room.
    destruct (rooms_forwarding now c (Dict d) w) as [-> ->].
    split_and!; repeat destruct (decide _); set_solver.
  - unfold run.
    destruct (handle_not_dict now c v w) as (-> & -> & -> & ->). simpl.
    split_and!; set_solver.
Qed.

Lemma on_frame tag now c (data : pyobj) w :
  conns (run (on tag now c data) w) = conns w
  ∧ ∀ r, members (run (on tag now c data) w) r ⊆ {[c]} ∪ members w r.
Proof.
  unfold on. split; [|intros r];
    repeat destruct (decide (tag = _)) as [_|_];
    first [apply (conns_handlers now) | apply (members_handlers now)
          | done | set_solver].
Qed.

Lemma unregister_gone c w r :
  (c ∉ conns (unregister c w))
  ∧ members (unregister c w) r = members w r ∖ {[c]}.
Proof.
  unfold unregister, members. simpl. rewrite participants_leave_all.
  set_solver.
Qed.

Lemma register_members now c w r :
  members (run (handle_connect now c) (register c w)) r ⊆ {[c]} ∪ members w r.
Proof.
  unfold members, run, register. simpl.
  rewrite !participants_enter_room.
  repeat destruct (decide _); set_solver.
Qed.

Lemma register_room_of_all now c w :
  members (run (handle_connect now c) (register c w)) VNone
  = {[c]} ∪ members w VNone.
Proof.
  unfold members, run, register. simpl.
  rewrite !participants_enter_room.
  rewrite decide_False by done. by rewrite decide_True by done.
Qed.

(** Only a [leave_class] without a class takes its sender out of the room
    of all clients. *)
Lemma on_keeps_room_of_all tag now c (data : pyobj) w :
  ¬ leaves_room_of_all (Message c tag data) →
  members w VNone ⊆ members (run (on tag now c data) w) VNone.
Proof.
  intros Htidy. unfold on, members.
  destruct (decide (tag = "join_class")) as [_|_].
  { destruct data as [d|v]; [|done].
    rewrite rooms_join_class, participants_enter_room.
    destruct (decide _); set_solver. }
  destruct (decide (tag = "leave_class")) as [->|_].
  { destruct data as [d|v]; [|done].
    rewrite rooms_leave_class, participants_exit_room.
    destruct (decide _) as [HNone|]; [|done].
    destruct Htidy. by split. }
  destruct (decide (tag = "poll_response_submitted")) as [_|_].
  { by rewrite (proj1 (rooms_forwarding now c data w)). }
  destruct (decide (tag = "engagement_alert")) as [_|_].
  { by rewrite (proj2 (rooms_forwarding now c data w)). }
  done.
Qed.

(** Along a run without such a [leave_class] the open sessions are the
    members of the room of all clients, and every member of a room is
    one of them. *)
Lemma tidy_invariant w :
  reachable_tidy w →
  conns w ⊆ members w VNone ∧ ∀ r, members w r ⊆ conns w.
Proof.
  intros Hw. induction Hw as [|w i w' _ [IHc IHm] Htidy Hstep].
  { split; [done|]. intros r. done. }
  destruct Hstep
    as [now c Hc|c Hc Hin|c Hc Hout|now c tag data Hc Hin|c tag data Hc Hout].
  - split.
    + rewrite register_room_of_all.
      unfold run, handle_connect, register. simpl. set_solver.
    + intros r. pose proof (register_members now c w r) as Hm.
      specialize (IHm r). unfold run, handle_connect in *. simpl in *.
      set_solver.
  - split.
    + rewrite (proj2 (unregister_gone _ _ _)).
      unfold unregister, run. simpl. set_solver.
    + intros r. rewrite (proj2 (unregister_gone _ _ _)).
      specialize (IHm r). unfold unregister, run. simpl. set_solver.
  - set_solver.
  - destruct (on_frame tag now c data w) as [Hconns Hm].
    pose proof (on_keeps_room_of_all tag now c data w Htidy) as Hall.
    rewrite Hconns. split; [set_solver|].
    intros r. specialize (Hm r). specialize (IHm r). set_solver.
  - done.
Qed.


End Invariant.

(** *** Events with a field missing *)

Section MissingFields.
Implicit Types (c now : string) (d : gmap string value) (w : world).

Lemma get_filled d key k (dflt : value) :
  d !! key = None →
  (key = k → field_default key = dflt) →
  default dflt (<[key := field_default key]> d !! k) = default dflt (d !! k).
Proof.
  intros Hnone Hdflt. destruct (decide (key = k)) as [->|Hne].
  - rewrite lookup_insert_eq, Hnone. simpl. by apply Hdflt.
  - by rewrite lookup_insert_ne.
Qed.

Ltac fill_gets Hnone :=
  repeat (rewrite (get_filled _ _ _ _ Hnone) by (by intros ->)).

(** C2, amended.  An event whose payload lacks a field raises no
    exception and is handled exactly as the same event carrying that
    field with its default value; for [join_class],
    [poll_response_submitted] and [engagement_alert] the handler emits
    its one envelope all the same. *)
Theorem missing_field_is_defaulted tag now c d w key :
  d !! key = None →
  ∃ w',
    on tag now c (Dict d) w = Ok tt w'
    ∧ on tag now c (Dict (<[key := field_default key]> d)) w = Ok tt w'
    ∧ (tag ∈ ["join_class"; "poll_response_submitted"; "engagement_alert"] →
       length (outbox w') = S (length (outbox w))).
Proof.
  intros Hnone. unfold on.
  destruct (decide (tag = "join_class")) as [->|Hj].
  { rewrite !handle_join_class_dict. fill_gets Hnone.
    eexists. split_and!; [done..|]. intros _. simpl.
    rewrite length_app. simpl. lia. }
  destruct (decide (tag = "leave_class")) as [->|Hl].
  { rewrite !handle_leave_class_dict. fill_gets Hnone.
    eexists. split_and!; [done..|]. intros Hin. set_solver. }
  destruct (decide (tag = "poll_response_submitted")) as [->|Hp].
  { rewrite !handle_poll_response_dict. fill_gets Hnone.
    eexists. split_and!; [done..|]. intros _. simpl.
    rewrite length_app. simpl. lia. }
  destruct (decide (tag = "engagement_alert")) as [->|He].
  { rewrite !handle_engagement_alert_dict. fill_gets Hnone.
    eexists. split_and!; [done..|]. intros _. simpl.
    rewrite length_app. simpl. lia. }
  eexists. split_and!; [done..|]. intros Hin. set_solver.
Qed.
End MissingFields.

(** *** Who receives what, in general *)

Section Audience.
Implicit Types (c now : string) (d : gmap string value) (w : world).

(** The room an alert for class [C] is addressed to is never [C]. *)
Lemma teachers_room_ne (C : value) : VStr ("teachers_" +:+ py_str C) ≠ C.
Proof.
  destruct C as [|s|z]; [done| |done].
  intros [= H]. apply (f_equal String.length) in H. simpl in H.
  change ("" +:+ s) with s in H. lia.
Qed.

(** Joining class [C] puts nobody in the room its alerts go to. *)
Lemma join_class_keeps_teachers_room now c d w (C : value) :
  d !! "class_id" = Some C →
  members (run (handle_join_class now c (Dict d)) w)
    (VStr ("teachers_" +:+ py_str C))
  = members w (VStr ("teachers_" +:+ py_str C)).
Proof.
  intros HC. unfold members.
  rewrite rooms_join_class, HC, participants_enter_room. simpl.
  destruct (decide _) as [He|]; [|done].
  by destruct (teachers_room_ne C).
Qed.

(** An alert goes to the participants of that room and to nobody else,
    whatever their role and whether or not they joined the class. *)
Lemma engagement_alert_audience now c d w :
  d_recipients <$> last (outbox (run (handle_engagement_alert now c (Dict d)) w))
  = Some (members w (VStr ("teachers_" +:+ py_str (default VNone (d !! "class_id"))))).
Proof.
  unfold run. rewrite handle_engagement_alert_dict. simpl.
  by rewrite last_snoc.
Qed.

(** [user_joined] for a class with a truthy name goes to every member
    the class has once the sender is in, the sender included. *)
Lemma user_joined_audience now c d w (C : value) :
  d !! "class_id" = Some C →
  truthy C = true →
  let w' := run (handle_join_class now c (Dict d)) w in
  d_recipients <$> last (outbox w') = Some (members w' C)
  ∧ c ∈ members w' C.
Proof.
  intros HC HT w'. subst w'. unfold run, members.
  rewrite handle_join_class_dict, HC. simpl. rewrite last_snoc. simpl.
  rewrite (target_truthy c C false HT). split; [done|].
  rewrite participants_enter_room, decide_True by done. set_solver.
Qed.
End Audience.

(** *** The scenarios, run *)

Section Runs.
Import Scenario.

(** C2, as stated, fails: a [poll_response_submitted] event from A without
    [total_responses] is not dropped, one more envelope leaves the
    server. *)
Lemma missing_total_responses_not_dropped :
  let w := both_in_class in
  let w' := run (on "poll_response_submitted" "09:00:04" "A" (Dict poll_without_total)) w in
  length (outbox w') = S (length (outbox w))
  ∧ ¬ (rooms w' = rooms w ∧ outbox w' = outbox w).
Proof.
  split; [by vm_compute|].
  intros [_ Hout]. apply (f_equal length) in Hout.
  vm_compute in Hout. discriminate.
Qed.

(** C1 on the code: B has joined class1 as a teacher and A as a student;
    the alert for class1 is addressed to the room teachers_class1, which
    nobody is in, so B does not receive it. *)
Theorem engagement_alert_reaches_no_teacher :
  let w' := run (on "engagement_alert" "09:00:04" "A" (Dict alert)) both_in_class in
  members both_in_class (VStr "class1") = {["A"; "B"]}
  ∧ (λ dl, (d_event dl, d_to dl, d_recipients dl)) <$> last (outbox w')
    = Some ("engagement_alert_received", VStr "teachers_class1", ∅).
Proof. split; by vm_compute. Qed.

(** C4 on the code: B is in class1 when A joins; the [user_joined]
    envelope goes to every member of class1 after the join, A
    included. *)
Theorem user_joined_reaches_sender :
  let w' := run (on "join_class" "09:00:03" "A" (Dict join_A)) B_in_class in
  members w' (VStr "class1") = {["A"; "B"]}
  ∧ (λ dl, (d_event dl, d_to dl, d_recipients dl)) <$> last (outbox w')
    = Some ("user_joined", VStr "class1", {["A"; "B"]})
  ∧ (λ dl, size (d_recipients dl)) <$> last (outbox w') = Some 2%nat.
Proof. split_and!; by vm_compute. Qed.

(** C6, as stated, fails: A is already in class1, joins it again and
    leaves; class1 had A as a member before the join and has none
    after the leave. *)
Lemma join_then_leave_of_a_member :
  let w := A_in_class in
  let w' := run (on "leave_class" "09:00:04" "A" (Dict leave_A))
              (run (on "join_class" "09:00:03" "A" (Dict join_A)) w) in
  members w (VStr "class1") = {["A"]}
  ∧ members w' (VStr "class1") = ∅
  ∧ members w' (VStr "class1") ≠ members w (VStr "class1").
Proof.
  assert (H1 : members A_in_class (VStr "class1") = {["A"]}) by by vm_compute.
  assert (H2 : members (run (on "leave_class" "09:00:04" "A" (Dict leave_A))
              (run (on "join_class" "09:00:03" "A" (Dict join_A)) A_in_class))
              (VStr "class1") = ∅) by by vm_compute.
  split_and!; [done..|]. rewrite H1, H2. set_solver.
Qed.

(** C2, amended, on the poll event without [total_responses]. *)
Lemma missing_field_is_defaulted_witness :
  poll_without_total !! "total_responses" = None
  ∧ ∃ w',
      on "poll_response_submitted" "09:00:04" "A" (Dict poll_without_total)
        both_in_class = Ok tt w'
      ∧ on "poll_response_submitted" "09:00:04" "A"
          (Dict (<["total_responses" := field_default "total_responses"]>
                   poll_without_total))
          both_in_class = Ok tt w'
      ∧ ("poll_response_submitted"
           ∈ ["join_class"; "poll_response_submitted"; "engagement_alert"] →
         length (outbox w') = S (length (outbox both_in_class))).
Proof.
  split; [reflexivity|].
  apply (missing_field_is_defaulted "poll_response_submitted" "09:00:04" "A"
           poll_without_total both_in_class "total_responses").
  reflexivity.
Defined.





(** C6, amended, on A joining class1 and leaving it again while B stays. *)
Lemma join_then_leave_restores_witness :
  ("A" ∉ members B_in_class (VStr "class1"))
  ∧ members (run (handle_leave_class "A" (Dict leave_A))
               (run (handle_join_class "09:00:03" "A" (Dict join_A)) B_in_class))
      (VStr "class1")
    = members B_in_class (VStr "class1").
Proof.
  assert (HA : "A" ∉ members B_in_class (VStr "class1")) by (by vm_compute).
  split; [exact HA|].
  apply (join_then_leave_restores "09:00:03" "A" join_A leave_A B_in_class
           (VStr "class1"));
    [reflexivity | reflexivity | exact HA].
Defined.

(** C9 on A joining class1 without saying its role. *)
Lemma join_without_role_is_student_witness :
  join_A_without_role !! "role" = None
  ∧ ∃ w' dl,
      handle_join_class "09:00:03" "A" (Dict join_A_without_role) B_in_class
        = Ok tt w'
      ∧ members w' (default VNone (join_A_without_role !! "class_id"))
        = {["A"]} ∪ members B_in_class
                      (default VNone (join_A_without_role !! "class_id"))
      ∧ outbox w' = (outbox B_in_class ++ [dl])%list
      ∧ d_event dl = "user_joined"
      ∧ d_payload dl !! "role" = Some (VStr "student")
      ∧ d_payload dl !! "user_id"
        = Some (default VNone (join_A_without_role !! "user_id"))
      ∧ (truthy (default VNone (join_A_without_role !! "class_id")) = true →
         d_recipients dl
         = {["A"]} ∪ members B_in_class
                       (default VNone (join_A_without_role !! "class_id")))
      ∧ (default VNone (join_A_without_role !! "class_id") = VNone →
         d_recipients dl = members B_in_class (VStr "A"))
      ∧ (default VNone (join_A_without_role !! "class_id") ≠ VNone →
         truthy (default VNone (join_A_without_role !! "class_id")) = false →
         d_recipients dl = members B_in_class VNone).
Proof.
  split; [reflexivity|].
  apply (join_without_role_is_student "09:00:03" "A" join_A_without_role
           B_in_class).
  reflexivity.
Defined.

(** C10 on the poll event without [total_responses]. *)
Lemma poll_without_total_responses_witness :
  poll_without_total !! "total_responses" = None
  ∧ ∃ w' dl,
      handle_poll_response "09:00:04" "A" (Dict poll_without_total)
        both_in_class = Ok tt w'
      ∧ outbox w' = (outbox both_in_class ++ [dl])%list
      ∧ d_event dl = "poll_updated"
      ∧ d_payload dl !! "total_responses" = Some (VInt 0)
      ∧ d_recipients dl
        = members both_in_class
            (if truthy (default VNone (poll_without_total !! "class_id"))
             then default VNone (poll_without_total !! "class_id")
             else VNone).
Proof.
  split; [reflexivity|].
  apply (poll_without_total_responses "09:00:04" "A" poll_without_total
           both_in_class).
  reflexivity.
Defined.
End Runs.

(** ** Further properties of the handlers *)

(** *** Shape of the room table *)

Section TableShape.
Implicit Types (c now : string) (d : gmap string value) (w : world)
  (r : value) (rs : gmap value (gset string)).

Lemma no_empty_room_enter c r rs :
  no_empty_room rs → no_empty_room (enter_room c r rs).
Proof.
  intros Hrs r' m. unfold enter_room.
  destruct (decide (r = r')) as [<-|Hne].
  - rewrite lookup_insert_eq. intros [= <-]. set_solver.
  - rewrite lookup_insert_ne by done. apply Hrs.
Qed.

Lemma no_empty_room_exit c r rs :
  no_empty_room rs → no_empty_room (exit_room c r rs).
Proof.
  intros Hrs r' m. unfold exit_room.
  destruct (rs !! r) as [m0|] eqn:Hm0; [|apply Hrs].
  destruct (decide (c ∈ m0)) as [Hc|Hc]; [|apply Hrs].
  destruct (decide (m0 ∖ {[c]} = ∅)) as [He|He].
  - destruct (decide (r = r')) as [<-|Hne].
    + by rewrite lookup_delete_eq.
    + rewrite lookup_delete_ne by done. apply Hrs.
  - destruct (decide (r = r')) as [<-|Hne].
    + rewrite lookup_insert_eq. by intros [= <-].
    + rewrite lookup_insert_ne by done. apply Hrs.
Qed.

Lemma no_empty_room_leave_all c rs :
  no_empty_room rs → no_empty_room (leave_all c rs).
Proof.
  intros Hrs r m. unfold leave_all. rewrite lookup_omap.
  destruct (rs !! r) as [m0|] eqn:Hm0; simpl; [|done].
  destruct (decide (c ∈ m0)) as [Hc|Hc].
  - destruct (decide (m0 ∖ {[c]} = ∅)) as [He|He]; [done|]. by intros [= <-].
  - intros [= <-]. by apply (Hrs r).
Qed.

(** What an event can do to the room table. *)
Lemma on_rooms tag now c (data : pyobj) w :
  rooms (run (on tag now c data) w) = rooms w
  ∨ (∃ r, rooms (run (on tag now c data) w) = enter_room c r (rooms w))
  ∨ (∃ r, rooms (run (on tag now c data) w) = exit_room c r (rooms w)).
Proof.
  unfold on.
  destruct (decide (tag = "join_class")) as [_|_].
  { destruct data as [d|v]; [|by left].
    right; left. eexists. apply rooms_join_class. }
  destruct (decide (tag = "leave_class")) as [_|_].
  { destruct data as [d|v]; [|by left].
    right; right. eexists. apply rooms_leave_class. }
  destruct (decide (tag = "poll_response_submitted")) as [_|_].
  { left. apply rooms_forwarding. }
  destruct (decide (tag = "engagement_alert")) as [_|_].
  { left. apply (rooms_forwarding now). }
  by left.
Qed.

Lemma no_empty_room_reachable w : reachable w → no_empty_room (rooms w).
Proof.
  intros Hw. induction Hw as [|w i w' _ IH Hstep]; [done|].
  destruct Hstep
    as [now c Hc|c Hc Hin|c Hc Hout|now c tag data Hc Hin|c tag data Hc Hout].
  - unfold run, handle_connect, register. simpl.
    by do 2 apply no_empty_room_enter.
  - unfold unregister, run. simpl. by apply no_empty_room_leave_all.
  - done.
  - destruct (on_rooms tag now c data w) as [->|[[r ->]|[r ->]]];
      [done|by apply no_empty_room_enter|by apply no_empty_room_exit].
  - done.
Qed.

Lemma exit_enter_room_table c r rs :
  no_empty_room rs →
  c ∉ participants rs r →
  exit_room c r (enter_room c r rs) = rs.
Proof.
  intros Hrs Hc. unfold exit_room, enter_room, participants in *.
  rewrite lookup_insert_eq.
  rewrite decide_True by set_solver.
  destruct (rs !! r) as [m|] eqn:Hm; simpl in *.
  - assert (Heq : ({[c]} ∪ m) ∖ {[c]} = m) by set_solver.
    rewrite Heq. rewrite decide_False by by apply (Hrs r).
    rewrite insert_insert_eq. by apply insert_id.
  - rewrite decide_True by set_solver. by apply delete_insert_id.
Qed.

Lemma enter_exit_room_table c r rs :
  c ∈ participants rs r →
  enter_room c r (exit_room c r rs) = rs.
Proof.
  unfold exit_room, enter_room, participants.
  destruct (rs !! r) as [m|] eqn:Hm; simpl; [|set_solver].
  intros Hc. rewrite decide_True by done.
  assert (Heq : {[c]} ∪ m ∖ {[c]} = m).
  { apply set_eq. intros x. destruct (decide (x = c)); set_solver. }
  destruct (decide (m ∖ {[c]} = ∅)) as [He|He].
  - rewrite lookup_delete_eq. simpl. rewrite insert_delete_eq.
    apply insert_id. rewrite Hm. f_equal. set_solver.
  - rewrite lookup_insert_eq. simpl. rewrite insert_insert_eq.
    rewrite Heq. by apply insert_id.
Qed.

Lemma enter_room_comm c1 c2 (r1 r2 : value) rs :
  enter_room c1 r1 (enter_room c2 r2 rs) = enter_room c2 r2 (enter_room c1 r1 rs).
Proof.
  unfold enter_room. destruct (decide (r1 = r2)) as [<-|Hne].
  - rewrite !lookup_insert_eq, !insert_insert_eq. simpl. f_equal. set_solver.
  - rewrite !lookup_insert_ne by done. by apply insert_insert_ne.
Qed.
End TableShape.

(** *** Joining and leaving, composed *)

Section JoinLeave.
Implicit Types (c now : string) (d : gmap string value) (w : world)
  (r R : value).

(** X1.  In every state the server can reach the room table holds no
    empty room: a room exists only while it has a member. *)
Theorem reachable_no_empty_room w r (m : gset string) :
  reachable w → rooms w !! r = Some m → m ≠ ∅.
Proof. intros Hw. by apply no_empty_room_reachable. Qed.

(** X2.  In a reachable state, a client that is not in room [R] and
    handles [join_class] and then [leave_class] for [R] leaves the whole
    room table exactly as it was: a room created by the join is deleted
    again. *)
Theorem join_then_leave_restores_table now c d d' w R :
  reachable w →
  d !! "class_id" = Some R →
  d' !! "class_id" = Some R →
  c ∉ members w R →
  rooms (run (handle_leave_class c (Dict d'))
           (run (handle_join_class now c (Dict d)) w)) = rooms w.
Proof.
  intros Hw Hd Hd' Hc.
  rewrite rooms_leave_class, rooms_join_class, Hd, Hd'. simpl.
  apply exit_enter_room_table; [by apply no_empty_room_reachable|done].
Qed.

(** X3.  A member of a room [R] other than [None], the room of all
    clients, that handles [leave_class] and then [join_class] for [R]
    leaves the whole room table exactly as it was. *)
Theorem leave_then_join_restores_table now c d d' w R :
  d !! "class_id" = Some R →
  d' !! "class_id" = Some R →
  R ≠ VNone →
  c ∈ members w R →
  rooms (run (handle_join_class now c (Dict d))
           (run (handle_leave_class c (Dict d')) w)) = rooms w.
Proof.
  intros Hd Hd' _ Hc.
  rewrite rooms_join_class, rooms_leave_class, Hd, Hd'. simpl.
  by apply enter_exit_room_table.
Qed.

(** X4.  Two [join_class] events, of any two clients for any two rooms,
    give the same room table in either order. *)
Theorem joins_commute now1 now2 c1 c2 d1 d2 w :
  rooms (run (handle_join_class now1 c1 (Dict d1))
           (run (handle_join_class now2 c2 (Dict d2)) w))
  = rooms (run (handle_join_class now2 c2 (Dict d2))
             (run (handle_join_class now1 c1 (Dict d1)) w)).
Proof. rewrite !rooms_join_class. apply enter_room_comm. Qed.

Lemma members_join_all now d (cs : list string) w R :
  d !! "class_id" = Some R →
  members (foldr (λ c w', run (handle_join_class now c (Dict d)) w') w cs) R
  = list_to_set cs ∪ members w R.
Proof.
  intros Hd. induction cs as [|c cs IH]; simpl; [set_solver|].
  unfold members in *.
  rewrite rooms_join_class, Hd, participants_enter_room. simpl.
  rewrite decide_True by done. rewrite IH. set_solver.
Qed.

(** X5.  When the clients of a list, all different and none of them in
    room [R] yet, each handle a [join_class] for [R], the room gains exactly
    as many members as the list has clients. *)
Theorem distinct_joins_all_count now d (cs : list string) w R :
  d !! "class_id" = Some R →
  NoDup cs →
  (∀ c, c ∈ cs → c ∉ members w R) →
  size (members (foldr (λ c w', run (handle_join_class now c (Dict d)) w') w cs) R)
  = (length cs + size (members w R))%nat.
Proof.
  intros Hd Hnd Hfresh. rewrite (members_join_all now d cs w R Hd).
  rewrite size_union.
  - by rewrite size_list_to_set.
  - intros c Hc1 Hc2. apply elem_of_list_to_set in Hc1. by apply (Hfresh c).
Qed.


(** X7.  When the sender is the only member of room [R], [leave_class] for
    [R] deletes the room from the table and touches no other room. *)
Theorem leave_of_last_member_deletes_room c d w R :
  d !! "class_id" = Some R →
  rooms w !! R = Some {[c]} →
  rooms (run (handle_leave_class c (Dict d)) w) = delete R (rooms w)
  ∧ rooms (run (handle_leave_class c (Dict d)) w) !! R = None.
Proof.
  intros Hd HR. rewrite rooms_leave_class, Hd. simpl.
  unfold exit_room. rewrite HR.
  rewrite decide_True by set_solver. rewrite decide_True by set_solver.
  split; [done|apply lookup_delete_eq].
Qed.

(** X8.  [join_class] adds the sender, and nobody else, to the room named
    by [class_id], and [leave_class] removes the sender, and nobody else,
    from it; every other room keeps its members and the set of
    connections stays the same. *)
Theorem join_leave_touch_one_room now c d w r :
  let R := default VNone (d !! "class_id") in
  members (run (handle_join_class now c (Dict d)) w) r
    = (if decide (R = r) then {[c]} ∪ members w r else members w r)
  ∧ members (run (handle_leave_class c (Dict d)) w) r
    = (if decide (R = r) then members w r ∖ {[c]} else members w r)
  ∧ conns (run (handle_join_class now c (Dict d)) w) = conns w
  ∧ conns (run (handle_leave_class c (Dict d)) w) = conns w.
Proof.
  intros R. unfold members.
  rewrite rooms_join_class, rooms_leave_class,
    participants_enter_room, participants_exit_room.
  split_and!; try done; apply (conns_handlers now).
Qed.
End JoinLeave.

(** *** What leaves the server *)

Section Traffic.
Implicit Types (c now : string) (d : gmap string value) (w : world).

(** What an event adds to the envelopes sent and to the lines printed:
    at most one of each, and an envelope's recipients are participants of
    a room as it is after the event. *)
Lemma on_appends tag now c (data : pyobj) w :
  let w' := run (on tag now c data) w in
  ∃ ds ls,
    outbox w' = (outbox w ++ ds)%list
    ∧ stdout w' = (stdout w ++ ls)%list
    ∧ (length ds ≤ 1)%nat ∧ (length ls ≤ 1)%nat
    ∧ ∀ dl, dl ∈ ds → ∃ r, d_recipients dl = members w' r.
Proof.
  assert (Hnone : ∀ w0 : world, ∃ ds ls,
    outbox w0 = (outbox w0 ++ ds)%list ∧ stdout w0 = (stdout w0 ++ ls)%list
    ∧ (length ds ≤ 1)%nat ∧ (length ls ≤ 1)%nat
    ∧ ∀ dl, dl ∈ ds → ∃ r, d_recipients dl = members w0 r).
  { intros w0. exists [], []. rewrite !app_nil_r.
    split_and!; simpl; try done; try lia. set_solver. }
  unfold on, run.
  destruct (decide (tag = "join_class")) as [_|_].
  { destruct data as [d|v]; [|apply Hnone].
    rewrite handle_join_class_dict. simpl.
    eexists [_], [_]. split_and!; simpl; try done.
    intros dl ->%list_elem_of_singleton. by eexists. }
  destruct (decide (tag = "leave_class")) as [_|_].
  { destruct data as [d|v]; [|apply Hnone].
    rewrite handle_leave_class_dict. simpl.
    eexists [], [_]. rewrite app_nil_r. split_and!; simpl; try done; try lia.
    set_solver. }
  destruct (decide (tag = "poll_response_submitted")) as [_|_].
  { destruct data as [d|v]; [|apply Hnone].
    rewrite handle_poll_response_dict. simpl.
    eexists [_], [_]. split_and!; simpl; try done.
    intros dl ->%list_elem_of_singleton. by eexists. }
  destruct (decide (tag = "engagement_alert")) as [_|_].
  { destruct data as [d|v]; [|apply Hnone].
    rewrite handle_engagement_alert_dict. simpl.
    eexists [_], [_]. split_and!; simpl; try done.
    intros dl ->%list_elem_of_singleton. by eexists. }
  apply Hnone.
Qed.

Lemma step_appends w i w' :
  step w i w' →
  ∃ ds ls,
    outbox w' = (outbox w ++ ds)%list
    ∧ stdout w' = (stdout w ++ ls)%list
    ∧ (length ds ≤ 1)%nat ∧ (length ls ≤ 1)%nat
    ∧ ∀ dl, dl ∈ ds → ∃ r, d_recipients dl = members w' r.
Proof.
  assert (Hnone : ∀ w0 : world, outbox w0 = outbox w → stdout w0 = stdout w →
    ∃ ds ls,
      outbox w0 = (outbox w ++ ds)%list ∧ stdout w0 = (stdout w ++ ls)%list
      ∧ (length ds ≤ 1)%nat ∧ (length ls ≤ 1)%nat
      ∧ ∀ dl, dl ∈ ds → ∃ r, d_recipients dl = members w0 r).
  { intros w0 -> ->. exists [], []. rewrite !app_nil_r.
    split_and!; simpl; try done; try lia. set_solver. }
  intros [now c Hc|c Hc Hin|c Hc Hout|now c tag data Hc Hin|c tag data Hc Hout].
  - unfold run, handle_connect, bind, print, emit, register. simpl.
    eexists [_], [_]. split_and!; simpl; try done.
    intros dl ->%list_elem_of_singleton. simpl.
    rewrite (proj2 (audience_no_skip true _)). by eexists.
  - unfold unregister, run. simpl.
    eexists [], [_]. rewrite app_nil_r. split_and!; simpl; try done; try lia.
    set_solver.
  - by apply Hnone.
  - apply on_appends.
  - by apply Hnone.
Qed.

(** X9.  Every transition of the server only appends to what was sent and
    printed before, and by at most one envelope and one line. *)
Theorem step_appends_at_most_one w i w' :
  step w i w' →
  ∃ ds ls,
    outbox w' = (outbox w ++ ds)%list
    ∧ stdout w' = (stdout w ++ ls)%list
    ∧ (length ds ≤ 1)%nat ∧ (length ls ≤ 1)%nat.
Proof.
  intros Hstep. destruct (step_appends w i w' Hstep) as (ds & ls & H).
  exists ds, ls. naive_solver.
Qed.

(** X10.  Departures are silent: neither [leave_class], whatever its
    payload, nor a disconnect sends an envelope, so the other members of
    the rooms are not told. *)
Theorem departures_are_silent c (data : pyobj) w :
  outbox (run (handle_leave_class c data) w) = outbox w
  ∧ ∀ w', step w (Disconnect c) w' → outbox w' = outbox w.
Proof.
  split.
  - unfold run. destruct data as [d|v]; [|done].
    by rewrite handle_leave_class_dict.
  - intros w' Hstep. by inversion Hstep; subst.
Qed.

(** X11.  Along every run of the server without a [leave_class] whose
    [class_id] is missing or [None], the envelope a transition sends goes
    to clients whose connection is open once the transition is done. *)
Theorem deliveries_reach_connected w i w' (ds : list delivery) :
  reachable_tidy w →
  ¬ leaves_room_of_all i →
  step w i w' →
  outbox w' = (outbox w ++ ds)%list →
  ∀ dl, dl ∈ ds → d_recipients dl ⊆ conns w'.
Proof.
  intros Hw Htidy Hstep Hds dl Hdl.
  destruct (step_appends w i w' Hstep) as (ds' & ls & Hout & _ & _ & _ & Hrec).
  rewrite Hout in Hds. apply app_inv_head in Hds. subst ds'.
  destruct (Hrec dl Hdl) as [r ->].
  apply tidy_invariant. by eapply reachable_tidy_step.
Qed.

(** X12.  A payload that is not a dict makes each of the four handlers
    raise [AttributeError] before it has done anything: rooms, envelopes
    and printed lines are as before. *)
Theorem non_dict_payload_raises tag now c (v : value) w :
  tag ∈ ["join_class"; "leave_class"; "poll_response_submitted";
         "engagement_alert"] →
  on tag now c (Atom v) w = Raise AttributeError w
  ∧ run (on tag now c (Atom v)) w = w.
Proof.
  intros Htag. unfold run.
  assert (H : on tag now c (Atom v) w = Raise AttributeError w).
  { repeat (apply elem_of_cons in Htag as [->|Htag]; [done|]).
    by apply elem_of_nil in Htag. }
  by rewrite H.
Qed.

(** X13.  [poll_response_submitted] checks no membership: sent by a client
    that is not in class [C], a class with a truthy name, the
    [poll_updated] envelope still goes to all members of [C], and the
    sender does not get it. *)
Theorem poll_from_non_member now c d w (C : value) :
  d !! "class_id" = Some C →
  truthy C = true →
  c ∉ members w C →
  d_recipients <$> last (outbox (run (handle_poll_response now c (Dict d)) w))
    = Some (members w C)
  ∧ ∀ dl, last (outbox (run (handle_poll_response now c (Dict d)) w)) = Some dl →
          c ∉ d_recipients dl.
Proof.
  intros HC HT Hc. unfold run. rewrite handle_poll_response_dict, HC. simpl.
  rewrite (target_truthy c C true HT).
  rewrite last_snoc. simpl. split; [done|]. by intros dl [= <-].
Qed.

(** X14.  The alerts of class [C] go to whoever has joined the room named
    teachers_[C], be it with the role of a student: a client that handles
    [join_class] with that name as [class_id] is among the recipients of
    the next [engagement_alert] for [C]. *)
Theorem alert_reaches_teachers_room_joiner now now' c c' d a w (C : value) :
  d !! "class_id" = Some (VStr ("teachers_" +:+ py_str C)) →
  a !! "class_id" = Some C →
  ∃ dl,
    last (outbox (run (handle_engagement_alert now' c' (Dict a))
                    (run (handle_join_class now c (Dict d)) w))) = Some dl
    ∧ d_event dl = "engagement_alert_received"
    ∧ c ∈ d_recipients dl.
Proof.
  intros Hd Ha. unfold run at 1.
  rewrite handle_engagement_alert_dict, Ha. simpl. rewrite last_snoc.
  eexists. split; [done|]. simpl. split; [done|].
  unfold members. rewrite rooms_join_class, Hd, participants_enter_room. simpl.
  rewrite decide_True by done. set_solver.
Qed.

(** X15.  A client that connects gets the [connected] envelope, and gets it
    alone when nobody sits in the room named by its session id. *)
Theorem connect_welcomes_newcomer now c w :
  members w (VStr c) = ∅ →
  let w' := run (handle_connect now c) (register c w) in
  (λ dl, (d_event dl, d_to dl, d_recipients dl)) <$> last (outbox w')
    = Some ("connected", VStr c, {[c]})
  ∧ conns w' = {[c]} ∪ conns w
  ∧ c ∈ members w' VNone.
Proof.
  intros Hroom w'. subst w'.
  unfold run, handle_connect, bind, print, emit, register, members in *.
  simpl. rewrite last_snoc. simpl.
  rewrite (proj2 (audience_no_skip true _)).
  rewrite !participants_enter_room. rewrite decide_True by done.
  rewrite decide_False by done. rewrite Hroom.
  split_and!; [|done|].
  - do 3 f_equal. set_solver.
  - repeat destruct (decide _); set_solver.
Qed.

(** The envelopes of the application. *)
Lemma on_envelopes tag now c (data : pyobj) w (ds : list delivery) :
  outbox (run (on tag now c data) w) = (outbox w ++ ds)%list →
  ∀ dl, dl ∈ ds →
    d_event dl ∈ ["user_joined"; "poll_updated"; "engagement_alert_received"]
    ∧ d_payload dl !! "timestamp" = Some (VStr now).
Proof.
  assert (Hnone : outbox w = (outbox w ++ ds)%list → ∀ dl, dl ∈ ds →
    d_event dl ∈ ["user_joined"; "poll_updated"; "engagement_alert_received"]
    ∧ d_payload dl !! "timestamp" = Some (VStr now)).
  { intros H. rewrite <- (app_nil_r (outbox w)) in H at 1.
    apply app_inv_head in H. subst ds. set_solver. }
  unfold on, run.
  destruct (decide (tag = "join_class")) as [_|_].
  { destruct data as [d|v]; [|apply Hnone].
    rewrite handle_join_class_dict. simpl.
    intros <-%app_inv_head dl ->%list_elem_of_singleton. simpl.
    split; [set_solver|done]. }
  destruct (decide (tag = "leave_class")) as [_|_].
  { destruct data as [d|v]; [|apply Hnone].
    rewrite handle_leave_class_dict. apply Hnone. }
  destruct (decide (tag = "poll_response_submitted")) as [_|_].
  { destruct data as [d|v]; [|apply Hnone].
    rewrite handle_poll_response_dict. simpl.
    intros <-%app_inv_head dl ->%list_elem_of_singleton. simpl.
    split; [set_solver|done]. }
  destruct (decide (tag = "engagement_alert")) as [_|_].
  { destruct data as [d|v]; [|apply Hnone].
    rewrite handle_engagement_alert_dict. simpl.
    intros <-%app_inv_head dl ->%list_elem_of_singleton. simpl.
    split; [set_solver|done]. }
  apply Hnone.
Qed.

(** X17.  Whatever a transition sends is one of the four envelopes of the
    application and carries a [timestamp], the time read when the event
    was handled. *)
Theorem envelopes_are_timestamped w i w' (ds : list delivery) :
  step w i w' →
  outbox w' = (outbox w ++ ds)%list →
  ∀ dl, dl ∈ ds →
    d_event dl ∈ ["connected"; "user_joined"; "poll_updated";
                  "engagement_alert_received"]
    ∧ ∃ t, d_payload dl !! "timestamp" = Some (VStr t).
Proof.
  intros [now c Hc|c Hc Hin|c Hc Hout|now c tag data Hc Hin|c tag data Hc Hout]
    Hds dl Hdl.
  - revert Hds. unfold run, handle_connect, bind, print, emit, register. simpl.
    intros <-%app_inv_head. apply list_elem_of_singleton in Hdl as ->. simpl.
    split; [set_solver|by eexists].
  - revert Hds. unfold unregister, run. simpl. intros Hds.
    rewrite <- (app_nil_r (outbox w)) in Hds at 1.
    apply app_inv_head in Hds. subst ds. set_solver.
  - revert Hds. simpl. intros Hds.
    rewrite <- (app_nil_r (outbox w)) in Hds at 1.
    apply app_inv_head in Hds. subst ds. set_solver.
  - destruct (on_envelopes tag now c data w ds Hds dl Hdl) as [He Ht].
    split; [set_solver|by eexists].
  - rewrite <- (app_nil_r (outbox w)) in Hds at 1.
    apply app_inv_head in Hds. subst ds. set_solver.
Qed.
End Traffic.

(** *** HTTP error handlers *)

Section HttpErrors.
Import Http.

(** X16.  The codes with an error handler are 404, 500, 400, 401 and 403
    and no other, and each of these handlers answers with the status it
    is registered for and repeats that status in the body, next to an
    [error] text. *)
Theorem errorhandler_status_matches (code : Z) :
  (is_Some (errorhandler code) ↔ code ∈ [404; 500; 400; 401; 403])
  ∧ ∀ h (debug : bool) (e : error),
      errorhandler code = Some h →
      (h debug e).2 = code
      ∧ (h debug e).1 !! "status" = Some (VInt code)
      ∧ is_Some ((h debug e).1 !! "error").
Proof.
  unfold errorhandler. split.
  - repeat (destruct (decide _) as [->|?]; [split; [set_solver|by eexists]|]).
    split; [by intros [? ?]|]. set_solver.
  - intros h debug e Hh.
    repeat (destruct (decide _) as [->|?];
            [injection Hh as <-; split_and!; [done|done|by eexists]|]).
    done.
Qed.
End HttpErrors.

(** *** The further properties on the scenarios *)

Section MoreRuns.
Import Scenario Http.

Lemma step_A_connects : step init (Connect "A") only_A.
Proof. apply (step_connect init "09:00:00" "A"). by vm_compute. Defined.

Lemma step_A_joins_alone :
  step only_A (Message "A" "join_class" (Dict join_A)) A_in_class.
Proof.
  apply (step_message only_A "09:00:02" "A" "join_class" (Dict join_A));
    by vm_compute.
Defined.

Lemma step_B_connects : step only_A (Connect "B") connected.
Proof. apply (step_connect only_A "09:00:01" "B"). by vm_compute. Defined.

Lemma step_B_joins :
  step connected (Message "B" "join_class" (Dict join_B)) B_in_class.
Proof.
  apply (step_message connected "09:00:02" "B" "join_class" (Dict join_B));
    by vm_compute.
Defined.

Lemma step_A_joins :
  step B_in_class (Message "A" "join_class" (Dict join_A)) both_in_class.
Proof.
  apply (step_message B_in_class "09:00:03" "A" "join_class" (Dict join_A));
    by vm_compute.
Defined.

Lemma join_is_tidy c (d : gmap string value) :
  ¬ leaves_room_of_all (Message c "join_class" (Dict d)).
Proof. simpl. intros [H _]. discriminate H. Defined.

Lemma reachable_tidy_B_in_class : reachable_tidy B_in_class.
Proof.
  apply (reachable_tidy_step connected (Message "B" "join_class" (Dict join_B)));
    [|apply join_is_tidy|exact step_B_joins].
  apply (reachable_tidy_step only_A (Connect "B"));
    [|exact (λ H, H)|exact step_B_connects].
  apply (reachable_tidy_step init (Connect "A"));
    [apply reachable_tidy_init|exact (λ H, H)|exact step_A_connects].
Defined.

Lemma reachable_only_A : reachable only_A.
Proof.
  eapply reachable_step; [apply reachable_init|exact step_A_connects].
Defined.

Lemma reachable_A_in_class : reachable A_in_class.
Proof.
  eapply reachable_step; [apply reachable_only_A|exact step_A_joins_alone].
Defined.

Lemma reachable_B_in_class : reachable B_in_class.
Proof.
  eapply reachable_step; [|exact step_B_joins].
  eapply reachable_step; [apply reachable_only_A|exact step_B_connects].
Defined.

Lemma A_not_in_class : "A" ∉ members B_in_class (VStr "class1").
Proof. by vm_compute. Defined.

(** X1 on A alone in class1. *)
Lemma reachable_no_empty_room_witness :
  rooms A_in_class !! VStr "class1" = Some {["A"]}
  ∧ ({["A"]} : gset string) ≠ ∅.
Proof.
  assert (H : rooms A_in_class !! VStr "class1" = Some {["A"]}) by (by vm_compute).
  split; [exact H|].
  exact (reachable_no_empty_room A_in_class (VStr "class1") {["A"]}
           reachable_A_in_class H).
Defined.

(** X2 on A joining class1 and leaving it while B stays. *)
Lemma join_then_leave_restores_table_witness :
  rooms (run (handle_leave_class "A" (Dict leave_A))
           (run (handle_join_class "09:00:03" "A" (Dict join_A)) B_in_class))
  = rooms B_in_class.
Proof.
  apply (join_then_leave_restores_table "09:00:03" "A" join_A leave_A
           B_in_class (VStr "class1") reachable_B_in_class);
    [reflexivity | reflexivity | exact A_not_in_class].
Defined.

(** X3 on A, in class1 with B, leaving and joining again. *)
Lemma leave_then_join_restores_table_witness :
  rooms (run (handle_join_class "09:00:05" "A" (Dict join_A))
           (run (handle_leave_class "A" (Dict leave_A)) both_in_class))
  = rooms both_in_class.
Proof.
  apply (leave_then_join_restores_table "09:00:05" "A" join_A leave_A
           both_in_class (VStr "class1"));
    [reflexivity | reflexivity | discriminate | by vm_compute].
Defined.

(** X5 on A and B joining class1, which nobody is in. *)
Lemma distinct_joins_all_count_witness :
  size (members
          (foldr (λ c w', run (handle_join_class "09:00:02" c (Dict join_A)) w')
             connected ["A"; "B"])
          (VStr "class1"))
  = (length ["A"; "B"] + size (members connected (VStr "class1")))%nat.
Proof.
  assert (Hempty : members connected (VStr "class1") = ∅) by (by vm_compute).
  apply (distinct_joins_all_count "09:00:02" join_A ["A"; "B"] connected
           (VStr "class1")).
  - reflexivity.
  - apply (bool_decide_unpack (NoDup ["A"; "B"])). by vm_compute.
  - intros c _. rewrite Hempty. apply not_elem_of_empty.
Defined.


(** X7 on A, alone in class1, leaving it. *)
Lemma leave_of_last_member_deletes_room_witness :
  rooms (run (handle_leave_class "A" (Dict leave_A)) A_in_class)
    = delete (VStr "class1") (rooms A_in_class)
  ∧ rooms (run (handle_leave_class "A" (Dict leave_A)) A_in_class)
      !! VStr "class1" = None.
Proof.
  apply (leave_of_last_member_deletes_room "A" leave_A A_in_class
           (VStr "class1"));
    [reflexivity | by vm_compute].
Defined.

(** X9 on A joining class1. *)
Lemma step_appends_at_most_one_witness :
  ∃ ds ls,
    outbox both_in_class = (outbox B_in_class ++ ds)%list
    ∧ stdout both_in_class = (stdout B_in_class ++ ls)%list
    ∧ (length ds ≤ 1)%nat ∧ (length ls ≤ 1)%nat.
Proof.
  exact (step_appends_at_most_one B_in_class
           (Message "A" "join_class" (Dict join_A)) both_in_class step_A_joins).
Defined.

(** X10 on A, in class1 with B, going away. *)
Lemma departures_are_silent_witness :
  outbox (run (handle_leave_class "A" (Dict leave_A)) both_in_class)
    = outbox both_in_class
  ∧ outbox (unregister "A" (run (handle_disconnect "A") both_in_class))
    = outbox both_in_class.
Proof.
  split.
  - exact (proj1 (departures_are_silent "A" (Dict leave_A) both_in_class)).
  - apply (proj2 (departures_are_silent "A" (Dict leave_A) both_in_class)).
    apply (step_disconnect both_in_class "A"); by vm_compute.
Defined.

(** X11 on A joining class1. *)
Lemma deliveries_reach_connected_witness :
  outbox both_in_class = (outbox B_in_class ++ [A_joined])%list
  ∧ d_recipients A_joined ⊆ conns both_in_class.
Proof.
  assert (H : outbox both_in_class = (outbox B_in_class ++ [A_joined])%list)
    by (by vm_compute).
  split; [exact H|].
  apply (deliveries_reach_connected B_in_class
           (Message "A" "join_class" (Dict join_A)) both_in_class [A_joined]
           reachable_tidy_B_in_class (join_is_tidy "A" join_A) step_A_joins
           H A_joined).
  apply list_elem_of_here.
Defined.

(** X12 on a [join_class] event whose payload is a string. *)
Lemma non_dict_payload_raises_witness :
  on "join_class" "09:00:03" "A" (Atom (VStr "class1")) B_in_class
    = Raise AttributeError B_in_class
  ∧ run (on "join_class" "09:00:03" "A" (Atom (VStr "class1"))) B_in_class
    = B_in_class.
Proof.
  apply (non_dict_payload_raises "join_class" "09:00:03" "A" (VStr "class1")
           B_in_class).
  apply list_elem_of_here.
Defined.

(** X13 on A sending the poll update to class1 without being in it. *)
Lemma poll_from_non_member_witness :
  d_recipients <$>
    last (outbox (run (handle_poll_response "09:00:04" "A" (Dict poll)) B_in_class))
    = Some (members B_in_class (VStr "class1"))
  ∧ ∀ dl,
      last (outbox (run (handle_poll_response "09:00:04" "A" (Dict poll))
                      B_in_class)) = Some dl →
      "A" ∉ d_recipients dl.
Proof.
  apply (poll_from_non_member "09:00:04" "A" poll B_in_class (VStr "class1"));
    [reflexivity | reflexivity | exact A_not_in_class].
Defined.

(** X14 on A, a student, asking for the room teachers_class1. *)
Lemma alert_reaches_teachers_room_joiner_witness :
  ∃ dl,
    last (outbox (run (handle_engagement_alert "09:00:05" "B" (Dict alert))
                    (run (handle_join_class "09:00:04" "A"
                            (Dict join_teachers_room)) both_in_class)))
      = Some dl
    ∧ d_event dl = "engagement_alert_received"
    ∧ "A" ∈ d_recipients dl.
Proof.
  apply (alert_reaches_teachers_room_joiner "09:00:04" "09:00:05" "A" "B"
           join_teachers_room alert both_in_class (VStr "class1"));
    reflexivity.
Defined.

(** X15 on A, the first client to connect. *)
Lemma connect_welcomes_newcomer_witness :
  (λ dl, (d_event dl, d_to dl, d_recipients dl)) <$> last (outbox only_A)
    = Some ("connected", VStr "A", {["A"]})
  ∧ conns only_A = {["A"]} ∪ conns init
  ∧ "A" ∈ members only_A VNone.
Proof.
  apply (connect_welcomes_newcomer "09:00:00" "A" init). reflexivity.
Defined.

(** X16 on the handler of 404. *)
Lemma errorhandler_status_matches_witness :
  errorhandler 404 = Some (λ _, not_found)
  ∧ (not_found (Error "404 Not Found" (Some (VStr "no such page")))).2 = 404
  ∧ (not_found (Error "404 Not Found" (Some (VStr "no such page")))).1
      !! "status" = Some (VInt 404)
  ∧ is_Some ((not_found (Error "404 Not Found" (Some (VStr "no such page")))).1
               !! "error").
Proof.
  split; [reflexivity|].
  apply (proj2 (errorhandler_status_matches 404) (λ _, not_found) false
           (Error "404 Not Found" (Some (VStr "no such page")))).
  reflexivity.
Defined.

(** X17 on A joining class1. *)
Lemma envelopes_are_timestamped_witness :
  outbox both_in_class = (outbox B_in_class ++ [A_joined])%list
  ∧ d_event A_joined ∈ ["connected"; "user_joined"; "poll_updated";
                        "engagement_alert_received"]
  ∧ ∃ t, d_payload A_joined !! "timestamp" = Some (VStr t).
Proof.
  assert (H : outbox both_in_class = (outbox B_in_class ++ [A_joined])%list)
    by (by vm_compute).
  split; [exact H|].
  apply (envelopes_are_timestamped B_in_class
           (Message "A" "join_class" (Dict join_A)) both_in_class [A_joined]
           step_A_joins H A_joined).
  apply list_elem_of_here.
Defined.
End MoreRuns.
